(** * Uber ride analysis (src/app.py): cleaning pipeline and aggregations

    A shallow embedding of [UberPuneAnalysis]: the haversine distance, the
    preprocessing pipeline and the aggregation methods, with Python's floats
    read as real numbers ([None] stands for NaN / NaT) and Python's
    exceptions as values of [exn]. Rounding is not modelled: what is stated
    of the pipeline is stated of the runs in which [preprocess_data]
    returns a dataset. *)

From Stdlib Require Import Reals Lra Lia List String Bool Arith PeanoNat.
From Stdlib Require Import Permutation Sorted NArith Ascii.
Import ListNotations.

Set Implicit Arguments.

(** ** Exceptions and fallible computations *)

Inductive exn : Type :=
| FileNotFoundError
| PermissionError
| AttributeError
| IndexError
| ValueError.

Inductive result (A : Type) : Type :=
| Ok (a : A)
| Raise (e : exn).

Arguments Ok {A} a.
Arguments Raise {A} e.

Definition bind {A B : Type} (m : result A) (k : A -> result B) : result B :=
  match m with
  | Ok a => k a
  | Raise e => Raise e
  end.

Notation "x <- m ;; k" := (bind m (fun x => k))
  (at level 61, m at next level, right associativity).

(** [df.apply(f, axis=1)]: [f] row by row, the first exception aborts. *)
Fixpoint mapM {A B : Type} (f : A -> result B) (l : list A) : result (list B) :=
  match l with
  | [] => Ok []
  | x :: t => y <- f x ;; ys <- mapM f t ;; Ok (y :: ys)
  end.

(** ** Python's [math] functions on reals *)

Module PyMath.
Local Open Scope R_scope.

Definition radians (deg : R) : R := deg * PI / 180.

(** [math.sqrt] raises [ValueError] (math domain error) below zero. *)
Definition sqrt (x : R) : result R :=
  if Rlt_dec x 0 then Raise ValueError else Ok (R_sqrt.sqrt x).

(** [math.atan2 y x]: the angle of the point [(x, y)], in [(-PI, PI]];
    [atan2 0 0] is [0]. *)
Definition atan2 (y x : R) : R :=
  if Rlt_dec 0 x then atan (y / x)
  else if Rlt_dec x 0 then
         if Rlt_dec y 0 then atan (y / x) - PI else atan (y / x) + PI
  else if Rlt_dec 0 y then PI / 2
  else if Rlt_dec y 0 then - (PI / 2)
  else 0.

End PyMath.

(** ** [haversine_distance] (nested in [calculate_distance]) *)

Section Haversine.
Local Open Scope R_scope.

(** In the body, [R] is the radius of the Earth in kilometers, as in the
    source. Over reals [a] stays within [0, 1]; in Python's floats rounding
    can lift it above 1 (near-antipodal points), and [math.sqrt] then
    raises: such a run is outside this embedding. *)
Definition haversine_distance (lat1 lon1 lat2 lon2 : R) : result R :=
  let R := 6371 in
  let lat1 := PyMath.radians lat1 in
  let lon1 := PyMath.radians lon1 in
  let lat2 := PyMath.radians lat2 in
  let lon2 := PyMath.radians lon2 in
  let dlat := lat2 - lat1 in
  let dlon := lon2 - lon1 in
  let a := sin (dlat / 2) ^ 2 + cos lat1 * cos lat2 * sin (dlon / 2) ^ 2 in
  s1 <- PyMath.sqrt a ;;
  s2 <- PyMath.sqrt (1 - a) ;;
  let c := 2 * PyMath.atan2 s1 s2 in
  Ok (R * c).

(** The quantity [a] of [haversine_distance], on coordinates in radians. *)
Definition hav_a (lat1 lon1 lat2 lon2 : R) : R :=
  sin ((lat2 - lat1) / 2) ^ 2 +
  cos lat1 * cos lat2 * sin ((lon2 - lon1) / 2) ^ 2.

(** The formula in the words of the specification: degrees to radians,
    [a = sin²(Δlat/2) + cos(lat1)·cos(lat2)·sin²(Δlon/2)] and
    [distance = 2·R·atan2(√a, √(1−a))] with [R = 6371]. *)
Definition spec_haversine_km (lat1 lon1 lat2 lon2 : R) : R :=
  let p1 := PyMath.radians lat1 in
  let p2 := PyMath.radians lat2 in
  let dlat := PyMath.radians lat2 - PyMath.radians lat1 in
  let dlon := PyMath.radians lon2 - PyMath.radians lon1 in
  let a := (sin (dlat / 2))² + cos p1 * cos p2 * (sin (dlon / 2))² in
  2 * 6371 * PyMath.atan2 (R_sqrt.sqrt a) (R_sqrt.sqrt (1 - a)).

End Haversine.

(** ** pandas' counting primitives

    [value_counts], [sort_index], [reindex], [groupby(...).size()] and
    [mode] on a column given as a list; a Series is an association list from
    labels to values, in the order of its rows. *)

Section Counting.
Variable K : Type.
Variable eq_dec : forall a b : K, {a = b} + {a <> b}.

(** Stable insertion sort on rows, [leb] deciding the order. *)
Section Sort.
Variable A : Type.
Variable leb : A -> A -> bool.

Fixpoint insert (x : A) (l : list A) : list A :=
  match l with
  | [] => [x]
  | y :: t => if leb x y then x :: l else y :: insert x t
  end.

Fixpoint isort (l : list A) : list A :=
  match l with
  | [] => []
  | x :: t => insert x (isort t)
  end.
End Sort.

(** Counting one more occurrence of [k] in a table of counts. *)
Fixpoint bump (k : K) (s : list (K * nat)) : list (K * nat) :=
  match s with
  | [] => [(k, 1)]
  | (k', c) :: t =>
      if eq_dec k k' then (k', S c) :: t else (k', c) :: bump k t
  end.

(** The table of counts of a column: one pass over its values, an entry
    per distinct value in the order of first appearance. *)
Definition tally (l : list K) : list (K * nat) :=
  fold_left (fun s k => bump k s) l [].

(** [Series.value_counts()]: the tally, most frequent first. *)
Definition value_counts (l : list K) : list (K * nat) :=
  isort (fun a b => snd b <=? snd a) (tally l).

(** [Series.sort_index()]. *)
Definition sort_index (V : Type) (leb : K -> K -> bool) (s : list (K * V))
  : list (K * V) :=
  isort (fun a b => leb (fst a) (fst b)) s.

(** Label lookup in a Series. *)
Fixpoint lookup (V : Type) (k : K) (s : list (K * V)) : option V :=
  match s with
  | [] => None
  | (k', v) :: t => if eq_dec k k' then Some v else lookup k t
  end.

(** [Series.reindex(labels)]: the labels in the given order, each with its
    value in the Series, NaN ([None]) for a label the Series lacks. *)
Definition reindex (V : Type) (labels : list K) (s : list (K * V))
  : list (K * option V) :=
  map (fun k => (k, lookup k s)) labels.

(** [groupby(keys).size()]: the tally, in key order. *)
Definition groupby_size (leb : K -> K -> bool) (l : list K) : list (K * nat) :=
  sort_index leb (tally l).

(** [Series.mode()]: the most frequent values, sorted. *)
Definition mode (leb : K -> K -> bool) (l : list K) : list K :=
  let top := fold_right Nat.max 0 (map snd (tally l)) in
  isort leb (map fst (filter (fun e => snd e =? top) (tally l))).

(** [.iloc[0]]. *)
Definition iloc0 (A : Type) (l : list A) : result A :=
  match l with
  | [] => Raise IndexError
  | x :: _ => Ok x
  end.

End Counting.

(** [Series.mean()]: NaN on an empty Series. *)
Definition mean (l : list R) : option R :=
  match l with
  | [] => None
  | _ => Some (fold_right Rplus 0%R l / INR (List.length l))%R
  end.

(** ** Data model *)

(** A cell of an untyped column as [read_csv] leaves it. *)
Inductive cell : Type :=
| Missing
| Text (s : string)
| Number (x : R).

Inductive DayOfWeek : Type :=
| Monday | Tuesday | Wednesday | Thursday | Friday | Saturday | Sunday.

(** [dt.day_name()] and [dt.weekday] of a day of the week. *)
Definition day_name (d : DayOfWeek) : string :=
  match d with
  | Monday => "Monday" | Tuesday => "Tuesday" | Wednesday => "Wednesday"
  | Thursday => "Thursday" | Friday => "Friday" | Saturday => "Saturday"
  | Sunday => "Sunday"
  end.

Definition weekday_number (d : DayOfWeek) : nat :=
  match d with
  | Monday => 0 | Tuesday => 1 | Wednesday => 2 | Thursday => 3
  | Friday => 4 | Saturday => 5 | Sunday => 6
  end.

(** A line of the input file: the six columns of the input contract. The
    coordinate columns are numeric, NaN ([None]) where the file has no
    value; further columns of the file, and coordinate columns that are not
    numeric, are outside this embedding. *)
Record RawRow : Type := {
  raw_pickup_datetime : cell;
  raw_pickup_lat : option R;
  raw_pickup_lon : option R;
  raw_dropoff_lat : option R;
  raw_dropoff_lon : option R;
  raw_fare_amount : cell
}.

(** [read_csv] labels the lines [0, 1, 2, ...]; [dropna] keeps the labels. *)
Definition with_index (raw : list RawRow) : list (nat * RawRow) :=
  combine (seq 0 (List.length raw)) raw.

(** [df.dropna(subset=[col])]: the rows whose [col] is not NaN, in order,
    each with the value found there. *)
Fixpoint dropna (A B : Type) (col : A -> option B) (df : list A)
  : list (A * B) :=
  match df with
  | [] => []
  | r :: t =>
      match col r with
      | Some v => (r, v) :: dropna col t
      | None => dropna col t
      end
  end.

Definition eq_dec_key (a b : R * R) : {a = b} + {a <> b}.
Proof. decide equality; apply Req_dec_T. Defined.

Definition leb_R (x y : R) : bool := if Rle_dec x y then true else false.

(** Lexicographic order on (latitude, longitude) pairs. *)
Definition leb_key (a b : R * R) : bool :=
  if Rlt_dec (fst a) (fst b) then true
  else if Req_dec_T (fst a) (fst b) then leb_R (snd a) (snd b)
  else false.

Definition days_order : list string :=
  ["Monday"; "Tuesday"; "Wednesday"; "Thursday"; "Friday"; "Saturday";
   "Sunday"]%string.

(** The default of [__init__]'s [data_path]. *)
Definition default_data_path : string := "pune_uber_rides.csv".

Definition not_found_message : string :=
  "Data file not found. Please provide a valid file.".

(** ** The class [UberPuneAnalysis] *)

(** What the class takes from pandas: timestamps and the coercing parsers.
    [to_datetime col] is [pd.to_datetime(col, errors='coerce')] read cell by
    cell: the column may settle the format its cells are parsed with, and
    [None] is NaT. [to_numeric] is [pd.to_numeric(_, errors='coerce')] on one
    cell, [None] being NaN. [dt_hour], [dt_month] and [dt_dayofweek] are the
    [.dt] accessors; [read_csv] is the file system seen through
    [pd.read_csv]. *)
Class Pandas : Type := {
  Timestamp : Type;
  to_datetime : list cell -> cell -> option Timestamp;
  to_numeric : cell -> option R;
  dt_hour : Timestamp -> nat;
  dt_month : Timestamp -> nat;
  dt_dayofweek : Timestamp -> DayOfWeek;
  read_csv : string -> result (list RawRow)
}.

Section Analysis.
Context {pandas : Pandas}.

(** A row once its timestamp is parsed and the derived columns are set. *)
Record Timed : Type := {
  t_index : nat;
  t_pickup_datetime : Timestamp;
  t_hour : nat;
  t_day : string;
  t_month : nat;
  t_weekday : nat;
  t_rest : RawRow
}.

(** A row of the cleaned dataset. *)
Record Row : Type := {
  index : nat;
  pickup_datetime : Timestamp;
  hour : nat;
  day : string;
  month : nat;
  weekday : nat;
  pickup_lat : R;
  pickup_lon : R;
  dropoff_lat : R;
  dropoff_lon : R;
  distance : R;
  fare_amount : R
}.

(** The dataset held in [self.df]: the rows, and the column
    [trip_duration] once [analyze_trip_durations] has stored it. *)
Record DataFrame : Type := {
  rows : list Row;
  trip_duration : option (list R)
}.

(** The object: [df] is [None] while the attribute [self.df] is unset. *)
Record UberPuneAnalysis : Type := {
  df : option DataFrame
}.

Definition derive (ir : nat * RawRow * Timestamp) : Timed :=
  let '(i, r, t) := ir in
  {| t_index := i;
     t_pickup_datetime := t;
     t_hour := dt_hour t;
     t_day := day_name (dt_dayofweek t);
     t_month := dt_month t;
     t_weekday := weekday_number (dt_dayofweek t);
     t_rest := r |}.

(** The subset of [dropna] on the four coordinate columns: a value only
    when none of them is NaN. *)
Definition coordinates (r : RawRow) : option (R * R * R * R) :=
  match raw_pickup_lat r, raw_pickup_lon r,
        raw_dropoff_lat r, raw_dropoff_lon r with
  | Some a, Some b, Some c, Some d => Some (a, b, c, d)
  | _, _, _, _ => None
  end.

(** [calculate_distance]: [haversine_distance] applied row by row. *)
Definition calculate_distance (rs : list (Timed * (R * R * R * R)))
  : result (list R) :=
  mapM (fun row =>
          let '(_, (plat, plon, dlat, dlon)) := row in
          haversine_distance plat plon dlat dlon) rs.

Definition clean (row : Timed * (R * R * R * R) * R * R) : Row :=
  let '(t, (plat, plon, dlat, dlon), dist, fare) := row in
  {| index := t_index t;
     pickup_datetime := t_pickup_datetime t;
     hour := t_hour t;
     day := t_day t;
     month := t_month t;
     weekday := t_weekday t;
     pickup_lat := plat;
     pickup_lon := plon;
     dropoff_lat := dlat;
     dropoff_lon := dlon;
     distance := dist;
     fare_amount := fare |}.

(** The parser [to_datetime] makes of the column [pickup_datetime]. *)
Definition parse_pickup (raw : list (nat * RawRow))
  : cell -> option Timestamp :=
  to_datetime (map (fun ir => raw_pickup_datetime (snd ir)) raw).

Definition preprocess_data (raw : list (nat * RawRow)) : result DataFrame :=
  (* pickup_datetime through to_datetime, then dropna on it *)
  let df1 :=
    dropna (fun ir => parse_pickup raw (raw_pickup_datetime (snd ir))) raw in
  (* hour, day, month, weekday *)
  let df2 := map derive df1 in
  (* dropna on the four coordinates *)
  let df3 := dropna (fun t => coordinates (t_rest t)) df2 in
  (* the distance column *)
  dist <- calculate_distance df3 ;;
  let df4 := combine df3 dist in
  (* fare_amount through to_numeric, then dropna on it *)
  let df5 :=
    dropna (fun row => to_numeric (raw_fare_amount (t_rest (fst (fst row)))))
           df4 in
  Ok {| rows := map clean df5; trip_duration := None |}.

(** [__init__]: the constructed object, or the exception that leaves the
    constructor, and what was written to the page. [preprocess_data] raises
    no [FileNotFoundError], so the handler only ever sees [read_csv]'s. *)
Definition init (data_path : string) : result UberPuneAnalysis * list string :=
  match (raw <- read_csv data_path ;; preprocess_data (with_index raw)) with
  | Ok d => (Ok {| df := Some d |}, [])
  | Raise FileNotFoundError => (Ok {| df := None |}, [not_found_message])
  | Raise e => (Raise e, [])
  end.

(** Reading the attribute [self.df]. *)
Definition get_df (self : UberPuneAnalysis) : result DataFrame :=
  match df self with
  | Some d => Ok d
  | None => Raise AttributeError
  end.

(** The aggregation methods return the series they hand to the plotting
    library, next to the object as the call leaves it. Drawing the figures,
    the map and the reverse geocoding of [analyze_popular_locations] are
    rendering and network calls and are left out. *)

Definition hourly_rides (d : DataFrame) : list (nat * nat) :=
  sort_index Nat.leb (value_counts Nat.eq_dec (map hour (rows d))).

Definition analyze_peak_hours (self : UberPuneAnalysis)
  : result (list (nat * nat)) * UberPuneAnalysis :=
  (d <- get_df self ;; Ok (hourly_rides d), self).

Definition weekly_rides (d : DataFrame) : list (string * option nat) :=
  reindex string_dec days_order (value_counts string_dec (map day (rows d))).

Definition analyze_weekly_pattern (self : UberPuneAnalysis)
  : result (list (string * option nat)) * UberPuneAnalysis :=
  (d <- get_df self ;; Ok (weekly_rides d), self).

Definition pickup_clusters (d : DataFrame) : list (R * R * nat) :=
  groupby_size eq_dec_key leb_key
    (map (fun r => (pickup_lat r, pickup_lon r)) (rows d)).

Definition popular_locations (d : DataFrame) : list (R * R * nat) :=
  filter (fun g => 10 <? snd g) (pickup_clusters d).

Definition analyze_popular_locations (self : UberPuneAnalysis)
  : result (list (R * R * nat)) * UberPuneAnalysis :=
  (d <- get_df self ;; Ok (popular_locations d), self).

Definition trip_durations (d : DataFrame) : list R :=
  map (fun r => (distance r / 20 * 60)%R) (rows d).

Definition analyze_trip_durations (self : UberPuneAnalysis)
  : result (list R) * UberPuneAnalysis :=
  match df self with
  | None => (Raise AttributeError, self)
  | Some d =>
      let td := trip_durations d in
      (Ok td, {| df := Some {| rows := rows d; trip_duration := Some td |} |})
  end.

Definition analyze_fare_distribution (self : UberPuneAnalysis)
  : result (list R) * UberPuneAnalysis :=
  (d <- get_df self ;; Ok (map fare_amount (rows d)), self).

Record SummaryStats : Type := {
  total_rides : nat;
  average_fare : option R;
  average_distance : option R;
  busiest_hour : nat;
  busiest_day : string
}.

Definition summary_stats (d : DataFrame) : result SummaryStats :=
  let n := List.length (rows d) in
  let fare := mean (map fare_amount (rows d)) in
  let dist := mean (map distance (rows d)) in
  h <- iloc0 (mode Nat.eq_dec Nat.leb (map hour (rows d))) ;;
  dn <- iloc0 (mode string_dec String.leb (map day (rows d))) ;;
  Ok {| total_rides := n;
        average_fare := fare;
        average_distance := dist;
        busiest_hour := h;
        busiest_day := dn |}.

Definition generate_summary_stats (self : UberPuneAnalysis)
  : result SummaryStats * UberPuneAnalysis :=
  (d <- get_df self ;; summary_stats d, self).

(** The six aggregation operations. *)
Inductive aggregation : Type :=
| PeakHours | WeeklyPattern | PopularLocations | TripDurations
| FareDistribution | SummaryStatistics.

(** The object after running an aggregation on it. *)
Definition after (op : aggregation) (self : UberPuneAnalysis)
  : UberPuneAnalysis :=
  match op with
  | PeakHours => snd (analyze_peak_hours self)
  | WeeklyPattern => snd (analyze_weekly_pattern self)
  | PopularLocations => snd (analyze_popular_locations self)
  | TripDurations => snd (analyze_trip_durations self)
  | FareDistribution => snd (analyze_fare_distribution self)
  | SummaryStatistics => snd (generate_summary_stats self)
  end.

(** Whether an aggregation raises on the object. *)
Definition raises (op : aggregation) (self : UberPuneAnalysis) : option exn :=
  let err (A : Type) (r : result A) :=
    match r with Ok _ => None | Raise e => Some e end in
  match op with
  | PeakHours => err _ (fst (analyze_peak_hours self))
  | WeeklyPattern => err _ (fst (analyze_weekly_pattern self))
  | PopularLocations => err _ (fst (analyze_popular_locations self))
  | TripDurations => err _ (fst (analyze_trip_durations self))
  | FareDistribution => err _ (fst (analyze_fare_distribution self))
  | SummaryStatistics => err _ (fst (generate_summary_stats self))
  end.

(** [main]: the page, as far as the analysis goes; the exception that ends
    the run, if any, and what [__init__] wrote. *)
Definition main : result unit * list string :=
  let (made, written) := init default_data_path in
  (analyzer <- made ;;
   _ <- fst (generate_summary_stats analyzer) ;;
   _ <- fst (analyze_peak_hours analyzer) ;;
   _ <- fst (analyze_weekly_pattern analyzer) ;;
   _ <- fst (analyze_popular_locations analyzer) ;;
   let (durations, analyzer') := analyze_trip_durations analyzer in
   _ <- durations ;;
   _ <- fst (analyze_fare_distribution analyzer') ;;
   Ok tt,
   written).

End Analysis.

(** ** Row-wise reading of the pipeline and a sample input *)

(** [keep f l]: the values [f] yields on [l], in order. *)
Fixpoint keep (A B : Type) (f : A -> option B) (l : list A) : list B :=
  match l with
  | [] => []
  | x :: t =>
      match f x with
      | Some y => y :: keep f t
      | None => keep f t
      end
  end.

Section RowWise.
Context {pandas : Pandas}.
Variable parse : cell -> option Timestamp.

(** What the pipeline makes of one labelled line, if it keeps it. *)
Definition clean_row (ir : nat * RawRow) : option Row :=
  match parse (raw_pickup_datetime (snd ir)),
        coordinates (snd ir),
        to_numeric (raw_fare_amount (snd ir)) with
  | Some t, Some (plat, plon, dlat, dlon), Some fare =>
      Some {| index := fst ir;
              pickup_datetime := t;
              hour := dt_hour t;
              day := day_name (dt_dayofweek t);
              month := dt_month t;
              weekday := weekday_number (dt_dayofweek t);
              pickup_lat := plat;
              pickup_lon := plon;
              dropoff_lat := dlat;
              dropoff_lon := dlon;
              distance := spec_haversine_km plat plon dlat dlon;
              fare_amount := fare |}
  | _, _, _ => None
  end.

(** The three conditions under which a line survives the cleaning. *)
Definition retained (r : RawRow) : Prop :=
  parse (raw_pickup_datetime r) <> None /\
  (raw_pickup_lat r <> None /\ raw_pickup_lon r <> None /\
   raw_dropoff_lat r <> None /\ raw_dropoff_lon r <> None) /\
  to_numeric (raw_fare_amount r) <> None.

End RowWise.

(** A sample instance of the parsers and three input lines: a well-formed
    one, one whose timestamp does not parse, one whose fare is not a
    number. *)
Module Sample.

Record Stamp : Type := {
  s_hour : nat;
  s_month : nat;
  s_dayofweek : DayOfWeek
}.

Definition parse_datetime (c : cell) : option Stamp :=
  match c with
  | Text s =>
      if String.eqb s "2024-01-01 10:30:00"
      then Some {| s_hour := 10; s_month := 1; s_dayofweek := Monday |}
      else None
  | _ => None
  end.

Definition parse_number (c : cell) : option R :=
  match c with
  | Number x => Some x
  | Text s => if String.eqb s "10.0" then Some 10%R else None
  | Missing => None
  end.

Definition line (when fare : string) : RawRow :=
  {| raw_pickup_datetime := Text when;
     raw_pickup_lat := Some 18.5204%R;
     raw_pickup_lon := Some 73.8567%R;
     raw_dropoff_lat := Some 18.5304%R;
     raw_dropoff_lon := Some 73.8567%R;
     raw_fare_amount := Text fare |}.

Definition lines : list RawRow :=
  [ line "2024-01-01 10:30:00" "10.0";
    line "not-a-date" "5.0";
    line "2024-01-01 10:30:00" "not-a-number" ].

Definition open_csv (path : string) : result (list RawRow) :=
  if String.eqb path "pune_uber_rides.csv" then Ok lines
  else Raise FileNotFoundError.

#[global] Instance pandas : Pandas := {
  Timestamp := Stamp;
  to_datetime := fun _ => parse_datetime;
  to_numeric := parse_number;
  dt_hour := s_hour;
  dt_month := s_month;
  dt_dayofweek := s_dayofweek;
  read_csv := open_csv
}.

Definition the_row : Row :=
  {| index := 0;
     pickup_datetime := {| s_hour := 10; s_month := 1; s_dayofweek := Monday |};
     hour := 10;
     day := "Monday";
     month := 1;
     weekday := 0;
     pickup_lat := 18.5204%R;
     pickup_lon := 73.8567%R;
     dropoff_lat := 18.5304%R;
     dropoff_lon := 73.8567%R;
     distance := spec_haversine_km 18.5204 73.8567 18.5304 73.8567;
     fare_amount := 10%R |}.

(** The cleaned dataset of [lines]. *)
Definition cleaned : DataFrame :=
  {| rows := [the_row]; trip_duration := None |}.

End Sample.

(** The same parsers over a file system whose file holds only the two
    malformed lines of the sample. *)
Module Malformed.

Definition lines : list RawRow := tl Sample.lines.

Definition pandas : Pandas := {|
  Timestamp := Sample.Stamp;
  to_datetime := fun _ => Sample.parse_datetime;
  to_numeric := Sample.parse_number;
  dt_hour := Sample.s_hour;
  dt_month := Sample.s_month;
  dt_dayofweek := Sample.s_dayofweek;
  read_csv := fun _ => Ok lines
|}.

End Malformed.

(** The same parsers over a file system without the file. *)
Module Missing.

Definition pandas : Pandas := {|
  Timestamp := Sample.Stamp;
  to_datetime := fun _ => Sample.parse_datetime;
  to_numeric := Sample.parse_number;
  dt_hour := Sample.s_hour;
  dt_month := Sample.s_month;
  dt_dayofweek := Sample.s_dayofweek;
  read_csv := fun _ => Raise FileNotFoundError
|}.

End Missing.

(** ** Facts about the haversine quantity *)

Section HaversineFacts.
Local Open Scope R_scope.

Lemma cos_product (u v : R) :
  cos (u - v) * cos (u + v) = (cos u) ^ 2 - (sin v) ^ 2.
Proof.
  rewrite cos_minus, cos_plus.
  pose proof (sin2_cos2 u) as Hu. pose proof (sin2_cos2 v) as Hv.
  unfold Rsqr in Hu, Hv. nra.
Qed.

(** [a] is a convex combination of two squares. *)
Lemma hav_a_convex (lat1 lon1 lat2 lon2 : R) :
  let t := (sin ((lon2 - lon1) / 2)) ^ 2 in
  hav_a lat1 lon1 lat2 lon2 =
  (1 - t) * (sin ((lat2 - lat1) / 2)) ^ 2 + t * (cos ((lat1 + lat2) / 2)) ^ 2.
Proof.
  intros t. unfold hav_a. fold t.
  pose proof (cos_product ((lat1 + lat2) / 2) ((lat2 - lat1) / 2)) as H.
  replace ((lat1 + lat2) / 2 - (lat2 - lat1) / 2) with lat1 in H by lra.
  replace ((lat1 + lat2) / 2 + (lat2 - lat1) / 2) with lat2 in H by lra.
  rewrite H. ring.
Qed.

Lemma sq_sin_range (x : R) : 0 <= (sin x) ^ 2 <= 1.
Proof.
  pose proof (sin2_cos2 x) as H. unfold Rsqr in H.
  pose proof (pow2_ge_0 (sin x)). pose proof (pow2_ge_0 (cos x)).
  simpl in *. lra.
Qed.

Lemma sq_cos_range (x : R) : 0 <= (cos x) ^ 2 <= 1.
Proof.
  pose proof (sin2_cos2 x) as H. unfold Rsqr in H.
  pose proof (pow2_ge_0 (sin x)). pose proof (pow2_ge_0 (cos x)).
  simpl in *. lra.
Qed.

Lemma hav_a_range (lat1 lon1 lat2 lon2 : R) :
  0 <= hav_a lat1 lon1 lat2 lon2 <= 1.
Proof.
  rewrite hav_a_convex.
  pose proof (sq_sin_range ((lon2 - lon1) / 2)) as Ht.
  pose proof (sq_sin_range ((lat2 - lat1) / 2)) as Hs.
  pose proof (sq_cos_range ((lat1 + lat2) / 2)) as Hc.
  cbv zeta. nra.
Qed.

Lemma hav_a_sym (lat1 lon1 lat2 lon2 : R) :
  hav_a lat1 lon1 lat2 lon2 = hav_a lat2 lon2 lat1 lon1.
Proof.
  unfold hav_a.
  replace ((lat1 - lat2) / 2) with (- ((lat2 - lat1) / 2)) by lra.
  replace ((lon1 - lon2) / 2) with (- ((lon2 - lon1) / 2)) by lra.
  rewrite !sin_neg. ring.
Qed.

Lemma py_sqrt_ok (x : R) : 0 <= x -> PyMath.sqrt x = Ok (R_sqrt.sqrt x).
Proof.
  intros Hx. unfold PyMath.sqrt. destruct (Rlt_dec x 0); [lra | reflexivity].
Qed.

Lemma atan_nonneg (x : R) : 0 <= x -> 0 <= atan x.
Proof.
  intros [Hx | <-].
  - left. rewrite <- atan_0. now apply atan_increasing.
  - rewrite atan_0. lra.
Qed.

Lemma atan2_nonneg (y x : R) : 0 <= y -> 0 <= PyMath.atan2 y x.
Proof.
  intros Hy. unfold PyMath.atan2.
  pose proof PI_RGT_0 as Hpi.
  destruct (Rlt_dec 0 x) as [Hx | Hx].
  - apply atan_nonneg. apply Rmult_le_pos; [exact Hy |].
    left. now apply Rinv_0_lt_compat.
  - destruct (Rlt_dec x 0) as [Hx' | Hx'].
    + destruct (Rlt_dec y 0) as [Hy' | _]; [lra |].
      pose proof (atan_bound (y / x)). lra.
    + destruct (Rlt_dec 0 y); [lra |].
      destruct (Rlt_dec y 0); lra.
Qed.

(** The source function never raises, and its value is the formula of the
    specification. *)
Lemma haversine_distance_spec (lat1 lon1 lat2 lon2 : R) :
  haversine_distance lat1 lon1 lat2 lon2 =
  Ok (spec_haversine_km lat1 lon1 lat2 lon2).
Proof.
  unfold haversine_distance. cbv zeta.
  fold (hav_a (PyMath.radians lat1) (PyMath.radians lon1)
              (PyMath.radians lat2) (PyMath.radians lon2)).
  set (a := hav_a _ _ _ _).
  assert (Ha : 0 <= a <= 1) by apply hav_a_range.
  rewrite (py_sqrt_ok (x := a)) by lra. simpl.
  rewrite (py_sqrt_ok (x := 1 - a)) by lra. simpl.
  f_equal. unfold spec_haversine_km. cbv zeta.
  replace ((sin ((PyMath.radians lat2 - PyMath.radians lat1) / 2))² +
           cos (PyMath.radians lat1) * cos (PyMath.radians lat2) *
           (sin ((PyMath.radians lon2 - PyMath.radians lon1) / 2))²)
    with a by (unfold a, hav_a, Rsqr; ring).
  ring.
Qed.

Lemma spec_haversine_km_nonneg (lat1 lon1 lat2 lon2 : R) :
  0 <= spec_haversine_km lat1 lon1 lat2 lon2.
Proof.
  unfold spec_haversine_km. cbv zeta.
  apply Rmult_le_pos; [lra |].
  apply atan2_nonneg, sqrt_pos.
Qed.

End HaversineFacts.

(** ** Facts about the counting primitives *)

Section SortFacts.
Variable A : Type.
Variable leb : A -> A -> bool.

Lemma insert_perm (x : A) (l : list A) : Permutation (insert leb x l) (x :: l).
Proof.
  induction l as [| y t IH]; simpl.
  - apply Permutation_refl.
  - destruct (leb x y).
    + apply Permutation_refl.
    + eapply perm_trans; [apply perm_skip, IH | apply perm_swap].
Qed.

Lemma isort_perm (l : list A) : Permutation (isort leb l) l.
Proof.
  induction l as [| x t IH]; simpl.
  - apply perm_nil.
  - eapply perm_trans; [apply insert_perm | apply perm_skip, IH].
Qed.

Lemma isort_In (x : A) (l : list A) : In x (isort leb l) <-> In x l.
Proof.
  split; apply Permutation_in;
    [apply isort_perm | apply Permutation_sym, isort_perm].
Qed.

End SortFacts.

Section CountingFacts.
Variable K : Type.
Variable eq_dec : forall a b : K, {a = b} + {a <> b}.

Lemma lookup_In (V : Type) (k : K) (v : V) (s : list (K * V)) :
  NoDup (map fst s) -> In (k, v) s -> lookup eq_dec k s = Some v.
Proof.
  induction s as [| [k' v'] t IH]; simpl; intros Hnd Hin; [contradiction |].
  inversion Hnd as [| ? ? Hnot Hnd']; subst.
  destruct Hin as [E | Hin].
  - inversion E; subst. destruct (eq_dec k k); [reflexivity | contradiction].
  - destruct (eq_dec k k') as [-> | _]; [| now apply IH].
    exfalso. apply Hnot. change k' with (fst (k', v)). now apply in_map.
Qed.

Lemma lookup_Some_In (V : Type) (k : K) (v : V) (s : list (K * V)) :
  lookup eq_dec k s = Some v -> In (k, v) s.
Proof.
  induction s as [| [k' v'] t IH]; simpl; [discriminate |].
  destruct (eq_dec k k') as [-> | _].
  - intros E. inversion E. now left.
  - intros E. right. now apply IH.
Qed.

Lemma lookup_absent (V : Type) (k : K) (s : list (K * V)) :
  ~ In k (map fst s) -> lookup eq_dec k s = None.
Proof.
  induction s as [| [k' v'] t IH]; simpl; intros Hnot; [reflexivity |].
  destruct (eq_dec k k') as [-> | _].
  - exfalso. apply Hnot. now left.
  - apply IH. intros H. apply Hnot. now right.
Qed.

(** A Series with distinct labels answers lookups the same in any order of
    its rows. *)
Lemma lookup_perm (V : Type) (k : K) (s s' : list (K * V)) :
  Permutation s s' -> NoDup (map fst s) ->
  lookup eq_dec k s' = lookup eq_dec k s.
Proof.
  intros Hp Hnd.
  assert (Hnd' : NoDup (map fst s'))
    by (eapply Permutation_NoDup; [apply Permutation_map, Hp | exact Hnd]).
  destruct (lookup eq_dec k s) as [v |] eqn:E.
  - apply lookup_In; [exact Hnd' |].
    eapply Permutation_in; [exact Hp | now apply lookup_Some_In].
  - destruct (lookup eq_dec k s') as [v' |] eqn:E'; [| reflexivity].
    apply lookup_Some_In in E'.
    apply (Permutation_in _ (Permutation_sym Hp)) in E'.
    apply (lookup_In _ _ _ Hnd) in E'. congruence.
Qed.

Lemma lookup_bump (k k' : K) (s : list (K * nat)) :
  lookup eq_dec k (bump eq_dec k' s) =
  if eq_dec k k'
  then Some (S (match lookup eq_dec k s with Some c => c | None => 0 end))
  else lookup eq_dec k s.
Proof.
  induction s as [| [k0 c0] t IH]; simpl.
  - destruct (eq_dec k k'); reflexivity.
  - destruct (eq_dec k' k0) as [-> | Hne]; simpl.
    + destruct (eq_dec k k0); reflexivity.
    + destruct (eq_dec k k0) as [-> | Hne'].
      * destruct (eq_dec k0 k'); [congruence | reflexivity].
      * exact IH.
Qed.

Lemma bump_labels (k x : K) (s : list (K * nat)) :
  In x (map fst (bump eq_dec k s)) <-> x = k \/ In x (map fst s).
Proof.
  induction s as [| [k0 c0] t IH]; simpl.
  - intuition.
  - destruct (eq_dec k k0) as [-> | Hne]; simpl.
    + intuition.
    + rewrite IH. intuition.
Qed.

Lemma bump_distinct (k : K) (s : list (K * nat)) :
  NoDup (map fst s) -> NoDup (map fst (bump eq_dec k s)).
Proof.
  induction s as [| [k0 c0] t IH]; simpl; intros Hnd.
  - constructor; [intros [] | constructor].
  - apply NoDup_cons_iff in Hnd. destruct Hnd as [Hfresh Hrest].
    destruct (eq_dec k k0) as [-> | Hne]; simpl.
    + apply NoDup_cons_iff. auto.
    + apply NoDup_cons_iff. split; [| auto].
      rewrite bump_labels. intros [-> | Hin]; [now apply Hne | auto].
Qed.

Lemma fold_bump_distinct (l : list K) (s : list (K * nat)) :
  NoDup (map fst s) ->
  NoDup (map fst (fold_left (fun s k => bump eq_dec k s) l s)).
Proof.
  revert s. induction l as [| k t IH]; simpl; intros s Hnd; [exact Hnd |].
  apply IH, bump_distinct, Hnd.
Qed.

Lemma lookup_fold_bump (k : K) (l : list K) (s : list (K * nat)) :
  lookup eq_dec k (fold_left (fun s k => bump eq_dec k s) l s) =
  match count_occ eq_dec l k with
  | O => lookup eq_dec k s
  | S n => Some (S n + match lookup eq_dec k s with
                       | Some c => c
                       | None => 0
                       end)
  end.
Proof.
  revert s. induction l as [| k' t IH]; intros s; simpl; [reflexivity |].
  rewrite IH, lookup_bump.
  destruct (eq_dec k' k) as [-> | Hne].
  - destruct (eq_dec k k) as [_ | Hn]; [| contradiction].
    destruct (count_occ eq_dec t k); [f_equal; lia | f_equal; lia].
  - destruct (eq_dec k k') as [-> | _]; [contradiction | reflexivity].
Qed.

Lemma tally_distinct (l : list K) : NoDup (map fst (tally eq_dec l)).
Proof. apply fold_bump_distinct. constructor. Qed.

(** The table holds, for each value, the number of its occurrences. *)
Lemma lookup_tally (k : K) (l : list K) :
  lookup eq_dec k (tally eq_dec l) =
  match count_occ eq_dec l k with
  | O => None
  | S n => Some (S n)
  end.
Proof.
  unfold tally. rewrite lookup_fold_bump. simpl.
  destruct (count_occ eq_dec l k); [reflexivity | f_equal; lia].
Qed.

Lemma tally_In (k : K) (c : nat) (l : list K) :
  In (k, c) (tally eq_dec l) <-> In k l /\ c = count_occ eq_dec l k.
Proof.
  split.
  - intros Hin. apply (lookup_In _ _ _ (tally_distinct l)) in Hin.
    rewrite lookup_tally in Hin.
    destruct (count_occ eq_dec l k) as [| n] eqn:Hc; [discriminate |].
    inversion Hin; subst. split; [| reflexivity].
    apply (count_occ_In eq_dec). lia.
  - intros [Hin ->]. apply lookup_Some_In. rewrite lookup_tally.
    apply (count_occ_In eq_dec) in Hin.
    destruct (count_occ eq_dec l k); [lia | reflexivity].
Qed.

(** Looking a label up in [value_counts]: its count when it occurs, nothing
    when it does not. *)
Lemma lookup_value_counts (k : K) (l : list K) :
  lookup eq_dec k (value_counts eq_dec l) =
  match count_occ eq_dec l k with
  | O => None
  | S n => Some (S n)
  end.
Proof.
  unfold value_counts. rewrite <- lookup_tally.
  apply lookup_perm; [| apply tally_distinct].
  apply Permutation_sym, isort_perm.
Qed.

Lemma groupby_size_In (leb : K -> K -> bool) (k : K) (c : nat) (l : list K) :
  In (k, c) (groupby_size eq_dec leb l) <-> In k l /\ c = count_occ eq_dec l k.
Proof.
  unfold groupby_size, sort_index. rewrite isort_In. apply tally_In.
Qed.

Lemma groupby_size_distinct (leb : K -> K -> bool) (l : list K) :
  NoDup (map fst (groupby_size eq_dec leb l)).
Proof.
  unfold groupby_size, sort_index.
  eapply Permutation_NoDup.
  - apply Permutation_map, Permutation_sym, isort_perm.
  - apply tally_distinct.
Qed.

End CountingFacts.

(** Filtering a Series keeps its labels distinct. *)
Lemma filter_distinct_labels (K V : Type) (wanted : K * V -> bool)
      (s : list (K * V)) :
  NoDup (map fst s) -> NoDup (map fst (filter wanted s)).
Proof.
  intros Hnd. induction s as [| e t IH]; simpl in *; [exact Hnd |].
  apply NoDup_cons_iff in Hnd. destruct Hnd as [Hfresh Hrest].
  destruct (wanted e); simpl; [| auto].
  apply NoDup_cons_iff. split; [| auto].
  intros Hin. apply Hfresh.
  apply in_map_iff in Hin. destruct Hin as [e' [Hk He']].
  apply filter_In in He'. rewrite <- Hk. apply in_map. tauto.
Qed.

(** ** The pipeline, row by row *)

Lemma mapM_total (A B : Type) (f : A -> result B) (g : A -> B) (l : list A) :
  (forall x, f x = Ok (g x)) -> mapM f l = Ok (map g l).
Proof.
  intros Hf. induction l as [| x t IH]; simpl; [reflexivity |].
  rewrite Hf, IH. reflexivity.
Qed.

Lemma keep_In (A B : Type) (f : A -> option B) (y : B) (l : list A) :
  In y (keep f l) <-> exists x, In x l /\ f x = Some y.
Proof.
  induction l as [| x t IH]; simpl.
  - split; [contradiction | intros [? [[] _]]].
  - destruct (f x) as [y' |] eqn:E; simpl; rewrite IH; split.
    + intros [<- | [x' [Hin Hx']]]; [exists x; auto | exists x'; auto].
    + intros [x' [[<- | Hin] Hx']];
        [left; congruence | right; exists x'; auto].
    + intros [x' [Hin Hx']]. exists x'. auto.
    + intros [x' [[<- | Hin] Hx']]; [congruence | exists x'; auto].
Qed.

Lemma with_index_In_from (raw : list RawRow) (start i : nat) (r : RawRow) :
  In (i, r) (combine (seq start (List.length raw)) raw) <->
  start <= i /\ nth_error raw (i - start) = Some r.
Proof.
  revert start. induction raw as [| x t IH]; intros start; simpl.
  - split; [contradiction |]. intros [_ H]. destruct (i - start); discriminate.
  - rewrite IH. split.
    + intros [E | [Hle Hn]].
      * inversion E; subst. rewrite Nat.sub_diag. auto.
      * split; [lia |].
        replace (i - start) with (S (i - S start)) by lia. exact Hn.
    + intros [Hle Hn]. destruct (i - start) as [| k] eqn:Hk.
      * left. simpl in Hn. inversion Hn; subst. f_equal. lia.
      * right. split; [lia |]. simpl in Hn.
        replace (i - S start) with k by lia. exact Hn.
Qed.

Lemma with_index_In (raw : list RawRow) (i : nat) (r : RawRow) :
  In (i, r) (with_index raw) <-> nth_error raw i = Some r.
Proof.
  unfold with_index. rewrite with_index_In_from, Nat.sub_0_r.
  split; [tauto | split; [lia | assumption]].
Qed.

Lemma with_index_labels (raw : list RawRow) :
  map fst (with_index raw) = seq 0 (List.length raw).
Proof.
  unfold with_index. generalize 0.
  induction raw as [| x t IH]; intros n; simpl; [reflexivity |].
  now rewrite IH.
Qed.

Lemma seq_sorted (len start : nat) : StronglySorted lt (seq start len).
Proof.
  revert start. induction len as [| n IH]; intros start; simpl; constructor.
  - apply IH.
  - apply Forall_forall. intros x Hx. apply in_seq in Hx. lia.
Qed.

Section PipelineFacts.
Context {pandas : Pandas}.
Variable parse : cell -> option Timestamp.

Lemma calculate_distance_total (rs : list (Timed * (R * R * R * R))) :
  calculate_distance rs =
  Ok (map (fun row =>
             let '(_, (plat, plon, dlat, dlon)) := row in
             spec_haversine_km plat plon dlat dlon) rs).
Proof.
  unfold calculate_distance. apply mapM_total.
  intros [t [[[plat plon] dlat] dlon]]. apply haversine_distance_spec.
Qed.

(** Over reals the pipeline raises nothing, and its rows are the kept
    lines. *)
Lemma preprocess_data_rows (raw : list (nat * RawRow)) :
  preprocess_data raw =
  Ok {| rows := keep (clean_row (parse_pickup raw)) raw;
        trip_duration := None |}.
Proof.
  unfold preprocess_data. cbv zeta.
  rewrite calculate_distance_total. simpl. do 2 f_equal.
  generalize (parse_pickup raw). intros p.
  induction raw as [| [i r] t IH]; simpl; [reflexivity |].
  unfold clean_row in *. simpl.
  destruct (p (raw_pickup_datetime r)) as [ts |]; simpl;
    [| exact IH].
  destruct (coordinates r) as [[[[plat plon] dlat] dlon] |]; simpl;
    [| exact IH].
  destruct (to_numeric (raw_fare_amount r)) as [fare |]; simpl;
    [| exact IH].
  f_equal. exact IH.
Qed.

Lemma clean_row_index (ir : nat * RawRow) (row : Row) :
  clean_row parse ir = Some row -> index row = fst ir.
Proof.
  unfold clean_row.
  destruct (parse _); [| discriminate].
  destruct (coordinates _) as [[[[? ?] ?] ?] |]; [| discriminate].
  destruct (to_numeric _); [| discriminate].
  intros E. inversion E. reflexivity.
Qed.

Lemma coordinates_Some (r : RawRow) (a b c d : R) :
  coordinates r = Some (a, b, c, d) <->
  raw_pickup_lat r = Some a /\ raw_pickup_lon r = Some b /\
  raw_dropoff_lat r = Some c /\ raw_dropoff_lon r = Some d.
Proof.
  unfold coordinates.
  destruct (raw_pickup_lat r), (raw_pickup_lon r), (raw_dropoff_lat r),
    (raw_dropoff_lon r); split; intros H;
    try discriminate; try (inversion H; subst; auto; fail);
    try (destruct H as [H1 [H2 [H3 H4]]]; congruence).
Qed.

Lemma clean_row_retained (i : nat) (r : RawRow) :
  (exists row, clean_row parse (i, r) = Some row) <-> retained parse r.
Proof.
  unfold clean_row, retained, coordinates. simpl.
  destruct (parse (raw_pickup_datetime r));
    destruct (raw_pickup_lat r); destruct (raw_pickup_lon r);
    destruct (raw_dropoff_lat r); destruct (raw_dropoff_lon r);
    destruct (to_numeric (raw_fare_amount r));
    split;
    try (intros [row H]; discriminate H);
    try (intros _; repeat split; discriminate);
    try (intros _; eexists; reflexivity);
    try (intros [H1 [[H2 [H3 [H4 H5]]] H6]]; congruence).
Qed.

Lemma keep_labels_sorted (raw : list (nat * RawRow)) :
  StronglySorted lt (map fst raw) ->
  StronglySorted lt (map index (keep (clean_row parse) raw)).
Proof.
  induction raw as [| ir t IH]; simpl; intros Hs; [constructor |].
  inversion Hs as [| ? ? Hs' Hall]; subst.
  destruct (clean_row parse ir) as [row |] eqn:E; simpl; [| now apply IH].
  constructor; [now apply IH |].
  apply Forall_forall. intros j Hj.
  apply in_map_iff in Hj. destruct Hj as [row' [<- Hin]].
  apply keep_In in Hin. destruct Hin as [ir' [Hin' E']].
  rewrite (clean_row_index _ E), (clean_row_index _ E').
  rewrite Forall_forall in Hall. apply Hall. now apply in_map.
Qed.

Lemma cleaned_row_origin (raw : list RawRow) (row : Row) :
  In row (keep (clean_row parse) (with_index raw)) <->
  exists r, nth_error raw (index row) = Some r /\
            clean_row parse (index row, r) = Some row.
Proof.
  rewrite keep_In. split.
  - intros [[i r] [Hin E]]. pose proof (clean_row_index _ E) as Hi.
    simpl in Hi. subst i. exists r. split; [now apply with_index_In | exact E].
  - intros [r [Hn E]]. exists (index row, r).
    split; [now apply with_index_In | exact E].
Qed.

Lemma kept_row_distance (raw : list (nat * RawRow)) (row : Row) :
  In row (keep (clean_row parse) raw) ->
  distance row =
  spec_haversine_km (pickup_lat row) (pickup_lon row)
                    (dropoff_lat row) (dropoff_lon row).
Proof.
  intros Hin. apply keep_In in Hin. destruct Hin as [ir [_ E]].
  unfold clean_row in E.
  destruct (parse _); [| discriminate].
  destruct (coordinates _) as [[[[? ?] ?] ?] |]; [| discriminate].
  destruct (to_numeric _); [| discriminate].
  inversion E. reflexivity.
Qed.

Lemma clean_row_fields (i : nat) (r : RawRow) (row : Row) :
  clean_row parse (i, r) = Some row ->
  index row = i /\
  parse (raw_pickup_datetime r) = Some (pickup_datetime row) /\
  (raw_pickup_lat r = Some (pickup_lat row) /\
   raw_pickup_lon r = Some (pickup_lon row) /\
   raw_dropoff_lat r = Some (dropoff_lat row) /\
   raw_dropoff_lon r = Some (dropoff_lon row)) /\
  to_numeric (raw_fare_amount r) = Some (fare_amount row) /\
  (hour row = dt_hour (pickup_datetime row) /\
   month row = dt_month (pickup_datetime row) /\
   day row = day_name (dt_dayofweek (pickup_datetime row)) /\
   weekday row = weekday_number (dt_dayofweek (pickup_datetime row))).
Proof.
  unfold clean_row. simpl.
  destruct (parse _) as [ts |]; [| discriminate].
  destruct (coordinates r) as [[[[a b] c] e] |] eqn:Hc; [| discriminate].
  destruct (to_numeric _) as [fare |]; [| discriminate].
  apply coordinates_Some in Hc. intros E. inversion E; subst; simpl.
  repeat split; tauto.
Qed.

End PipelineFacts.

(** What the pipeline returns, when it returns: nothing here rests on
    [haversine_distance] returning. *)

Lemma haversine_distance_value (lat1 lon1 lat2 lon2 km : R) :
  haversine_distance lat1 lon1 lat2 lon2 = Ok km ->
  km = spec_haversine_km lat1 lon1 lat2 lon2.
Proof.
  unfold haversine_distance, PyMath.sqrt. cbv zeta.
  destruct (Rlt_dec _ 0) as [_ | _]; cbn [bind]; [discriminate |].
  destruct (Rlt_dec _ 0) as [_ | _]; cbn [bind]; [discriminate |].
  intros E. inversion E. unfold spec_haversine_km. cbv zeta.
  unfold Rsqr. rewrite !Rmult_1_r. ring.
Qed.

Lemma mapM_inv (A B : Type) (f : A -> result B) (g : A -> B) (l : list A)
      (ys : list B) :
  (forall x y, f x = Ok y -> y = g x) ->
  mapM f l = Ok ys -> ys = map g l.
Proof.
  intros Hf. revert ys. induction l as [| x t IH]; simpl; intros ys E.
  - now inversion E.
  - destruct (f x) as [y | e] eqn:Ex; simpl in E; [| discriminate].
    destruct (mapM f t) as [ys' | e]; simpl in E; [| discriminate].
    inversion E. f_equal; [now apply Hf | now apply IH].
Qed.

Section PipelineReturns.
Context {pandas : Pandas}.

Lemma calculate_distance_inv (rs : list (Timed * (R * R * R * R)))
      (dist : list R) :
  calculate_distance rs = Ok dist ->
  dist = map (fun row =>
                let '(_, (plat, plon, dlat, dlon)) := row in
                spec_haversine_km plat plon dlat dlon) rs.
Proof.
  unfold calculate_distance. apply mapM_inv.
  intros [t [[[plat plon] dlat] dlon]] km. apply haversine_distance_value.
Qed.

Lemma preprocess_data_inv (raw : list (nat * RawRow)) (d : DataFrame) :
  preprocess_data raw = Ok d ->
  d = {| rows := keep (clean_row (parse_pickup raw)) raw;
         trip_duration := None |}.
Proof.
  unfold preprocess_data. cbv zeta.
  destruct (calculate_distance _) as [dist | e] eqn:Hdist; simpl;
    [| discriminate].
  intros E. inversion E. apply calculate_distance_inv in Hdist. subst dist.
  do 2 f_equal. generalize (parse_pickup raw). intros p. clear.
  induction raw as [| [i r] t IH]; simpl; [reflexivity |].
  unfold clean_row in *. simpl.
  destruct (p (raw_pickup_datetime r)) as [ts |]; simpl;
    [| exact IH].
  destruct (coordinates r) as [[[[plat plon] dlat] dlon] |]; simpl;
    [| exact IH].
  destruct (to_numeric (raw_fare_amount r)) as [fare |]; simpl;
    [| exact IH].
  f_equal. exact IH.
Qed.

(** A well-formed line has its row in the dataset the pipeline returns,
    with the line's label and coordinates. *)
Lemma retained_line_row (raw : list RawRow) (d : DataFrame) (i : nat)
      (r : RawRow) :
  preprocess_data (with_index raw) = Ok d ->
  nth_error raw i = Some r ->
  retained (parse_pickup (with_index raw)) r ->
  exists row,
    In row (rows d) /\ index row = i /\
    raw_pickup_lat r = Some (pickup_lat row) /\
    raw_pickup_lon r = Some (pickup_lon row) /\
    raw_dropoff_lat r = Some (dropoff_lat row) /\
    raw_dropoff_lon r = Some (dropoff_lon row).
Proof.
  intros Hd Hn Hr. apply preprocess_data_inv in Hd. subst d. simpl.
  apply (clean_row_retained _ i) in Hr. destruct Hr as [row E].
  pose proof (clean_row_fields _ _ _ E) as [Hi [_ [Hc _]]].
  exists row. split; [| split; [exact Hi | exact Hc]].
  apply cleaned_row_origin. exists r. rewrite Hi. auto.
Qed.

End PipelineReturns.


Lemma sorted_labels_NoDup (l : list nat) : StronglySorted lt l -> NoDup l.
Proof.
  induction 1 as [| x t Hs IH Hall]; constructor; [| exact IH].
  intros Hin. rewrite Forall_forall in Hall. specialize (Hall x Hin). lia.
Qed.

(** ** The sample input, end to end *)

(** Of the three sample lines only the first survives, with fare 10. *)
Lemma sample_cleaned :
  preprocess_data (with_index Sample.lines) = Ok Sample.cleaned.
Proof.
  rewrite preprocess_data_rows. reflexivity.
Qed.

Example sample_init :
  init default_data_path = (Ok {| df := Some Sample.cleaned |}, []).
Proof.
  unfold init. simpl read_csv. unfold Sample.open_csv. simpl bind.
  rewrite sample_cleaned. reflexivity.
Qed.

Example sample_hourly_rides : hourly_rides Sample.cleaned = [(10, 1)].
Proof. reflexivity. Qed.

Example sample_weekly_rides :
  weekly_rides Sample.cleaned =
  [("Monday", Some 1); ("Tuesday", None); ("Wednesday", None);
   ("Thursday", None); ("Friday", None); ("Saturday", None);
   ("Sunday", None)]%string.
Proof. reflexivity. Qed.

Example sample_popular_locations : popular_locations Sample.cleaned = [].
Proof. reflexivity. Qed.

Example sample_summary_stats :
  exists stats,
    generate_summary_stats {| df := Some Sample.cleaned |} =
    (Ok stats, {| df := Some Sample.cleaned |}) /\
    total_rides stats = 1 /\
    average_fare stats = Some ((10 + 0) / 1)%R /\
    busiest_hour stats = 10 /\
    busiest_day stats = "Monday"%string.
Proof. eexists. repeat split. Qed.

(** X2: two identical points are at distance 0. *)
Example haversine_distance_same_point (lat lon : R) :
  haversine_distance lat lon lat lon = Ok 0%R.
Proof.
  rewrite haversine_distance_spec. f_equal.
  unfold spec_haversine_km. cbv zeta.
  replace ((PyMath.radians lat - PyMath.radians lat) / 2)%R with 0%R by lra.
  replace ((PyMath.radians lon - PyMath.radians lon) / 2)%R with 0%R by lra.
  rewrite sin_0, Rsqr_0, Rmult_0_r, Rplus_0_r, Rminus_0_r, sqrt_0, sqrt_1.
  unfold PyMath.atan2. destruct (Rlt_dec 0 1) as [_ | H]; [| lra].
  replace (0 / 1)%R with 0%R by lra. rewrite atan_0. ring.
Qed.

(** ** The distance function *)

(** C7: the distance function is symmetric in its two points. *)
Theorem haversine_distance_symmetric (lat1 lon1 lat2 lon2 : R) :
  haversine_distance lat1 lon1 lat2 lon2 =
  haversine_distance lat2 lon2 lat1 lon1.
Proof.
  unfold haversine_distance. cbv zeta.
  fold (hav_a (PyMath.radians lat1) (PyMath.radians lon1)
              (PyMath.radians lat2) (PyMath.radians lon2)).
  fold (hav_a (PyMath.radians lat2) (PyMath.radians lon2)
              (PyMath.radians lat1) (PyMath.radians lon1)).
  rewrite (hav_a_sym (PyMath.radians lat1) (PyMath.radians lon1)).
  reflexivity.
Qed.

(** ** The cleaning pipeline *)

Section CleaningClaims.
Context {pandas : Pandas}.

(** X17: whenever the pipeline returns a cleaned dataset, a line of the
    input appears in it (under its own label) if and only if its pickup
    timestamp parses, all four coordinates are present and its fare coerces
    to a number; every cleaned row stems from a line of the input, and no
    line yields two rows. *)
Theorem preprocess_data_retains_exactly (raw : list RawRow) (d : DataFrame) :
  preprocess_data (with_index raw) = Ok d ->
  (forall i r, nth_error raw i = Some r ->
     ((exists row, In row (rows d) /\ index row = i) <->
      retained (parse_pickup (with_index raw)) r)) /\
  (forall row, In row (rows d) ->
     exists r, nth_error raw (index row) = Some r) /\
  NoDup (map index (rows d)).
Proof.
  intros Hd. apply preprocess_data_inv in Hd. subst d. simpl.
  split; [| split].
  - intros i r Hn. split.
    + intros [row [Hin Hi]]. apply cleaned_row_origin in Hin.
      destruct Hin as [r' [Hn' E]]. rewrite Hi in Hn'.
      assert (r' = r) by congruence. subst r'.
      eapply clean_row_retained. exists row. exact E.
    + intros Hr. apply (clean_row_retained _ i) in Hr.
      destruct Hr as [row E]. exists row.
      pose proof (clean_row_index _ _ E) as Hi. simpl in Hi.
      split; [| exact Hi]. apply cleaned_row_origin. exists r.
      rewrite Hi. split; assumption.
  - intros row Hin. apply cleaned_row_origin in Hin.
    destruct Hin as [r [Hn _]]. now exists r.
  - apply sorted_labels_NoDup, keep_labels_sorted.
    rewrite with_index_labels. apply seq_sorted.
Qed.

(** C2: in the cleaned dataset the pipeline returns, every well-formed
    line of the input has its row, with the line's four coordinates, and
    the distance of every row is the haversine formula on its pickup and
    dropoff coordinates: degrees to radians,
    a = sin²(Δlat/2) + cos(lat1)·cos(lat2)·sin²(Δlon/2) and
    distance = 2·R·atan2(√a, √(1−a)) with R = 6371. *)
Theorem distance_is_haversine_formula (raw : list RawRow) (d : DataFrame) :
  preprocess_data (with_index raw) = Ok d ->
  (forall i r, nth_error raw i = Some r ->
     retained (parse_pickup (with_index raw)) r ->
     exists row,
       In row (rows d) /\ index row = i /\
       raw_pickup_lat r = Some (pickup_lat row) /\
       raw_pickup_lon r = Some (pickup_lon row) /\
       raw_dropoff_lat r = Some (dropoff_lat row) /\
       raw_dropoff_lon r = Some (dropoff_lon row)) /\
  (forall row, In row (rows d) ->
     distance row =
     spec_haversine_km (pickup_lat row) (pickup_lon row)
                       (dropoff_lat row) (dropoff_lon row)).
Proof.
  intros Hd. split.
  - intros i r. now apply retained_line_row.
  - apply preprocess_data_inv in Hd. subst d. simpl.
    intros row. apply kept_row_distance.
Qed.

(** C10: preprocessing is a stable filter plus enrichment: every row of
    the cleaned dataset the pipeline returns stems from the line of the raw
    input that carries its label, with that line's parsed pickup timestamp,
    its four coordinates and the numeric value of its fare, and the labels
    of the cleaned rows increase along the dataset, so that retained rows
    keep their relative order. *)
Theorem preprocess_data_stable (raw : list RawRow) (d : DataFrame) :
  preprocess_data (with_index raw) = Ok d ->
  (forall row, In row (rows d) ->
     exists r, nth_error raw (index row) = Some r /\
       parse_pickup (with_index raw) (raw_pickup_datetime r) =
       Some (pickup_datetime row) /\
       raw_pickup_lat r = Some (pickup_lat row) /\
       raw_pickup_lon r = Some (pickup_lon row) /\
       raw_dropoff_lat r = Some (dropoff_lat row) /\
       raw_dropoff_lon r = Some (dropoff_lon row) /\
       to_numeric (raw_fare_amount r) = Some (fare_amount row)) /\
  StronglySorted lt (map index (rows d)).
Proof.
  intros Hd. apply preprocess_data_inv in Hd. subst d. simpl. split.
  - intros row Hin. apply cleaned_row_origin in Hin.
    destruct Hin as [r [Hn E]]. exists r. split; [exact Hn |].
    pose proof (clean_row_fields _ _ _ E) as [_ [Hts [Hc [Hf _]]]]. tauto.
  - apply keep_labels_sorted. rewrite with_index_labels. apply seq_sorted.
Qed.

End CleaningClaims.

(** The three sample lines clean to the one-row sample dataset. *)
Lemma preprocess_data_retains_exactly_witness :
  preprocess_data (with_index Sample.lines) = Ok Sample.cleaned /\
  NoDup (map index (rows Sample.cleaned)).
Proof.
  split; [exact sample_cleaned |].
  exact (proj2 (proj2 (preprocess_data_retains_exactly
                         Sample.lines sample_cleaned))).
Defined.

Lemma distance_is_haversine_formula_witness :
  preprocess_data (with_index Sample.lines) = Ok Sample.cleaned /\
  forall row, In row (rows Sample.cleaned) ->
    distance row =
    spec_haversine_km (pickup_lat row) (pickup_lon row)
                      (dropoff_lat row) (dropoff_lon row).
Proof.
  split; [exact sample_cleaned |].
  exact (proj2 (distance_is_haversine_formula Sample.lines sample_cleaned)).
Defined.

Lemma preprocess_data_stable_witness :
  preprocess_data (with_index Sample.lines) = Ok Sample.cleaned /\
  StronglySorted lt (map index (rows Sample.cleaned)).
Proof.
  split; [exact sample_cleaned |].
  exact (proj2 (preprocess_data_stable Sample.lines sample_cleaned)).
Defined.

(** ** The aggregations *)

Section AggregationClaims.
Context {pandas : Pandas}.

(** C4, as the code has it: the weekly distribution lists exactly the seven
    day names from Monday to Sunday; a day that occurs in the dataset
    carries the number of rows with that day name, and a day that does not
    occur carries NaN (no value), not zero. *)
Theorem weekly_rides_counts (d : DataFrame) :
  weekly_rides d =
  map (fun dn =>
         (dn, match count_occ string_dec (map day (rows d)) dn with
              | O => None
              | S n => Some (S n)
              end)) days_order.
Proof.
  unfold weekly_rides, reindex. apply map_ext. intros dn.
  now rewrite lookup_value_counts.
Qed.

(** C6: the location-popularity view holds the group of a (pickup
    latitude, pickup longitude) pair, with the number of rows at exactly
    that pair, if and only if that number exceeds 10, and no pair has two
    groups. *)
Theorem popular_locations_exactly (d : DataFrame) :
  (forall la lo c,
     In (la, lo, c) (popular_locations d) <->
     c = count_occ eq_dec_key
           (map (fun r => (pickup_lat r, pickup_lon r)) (rows d)) (la, lo) /\
     10 < c) /\
  NoDup (map fst (popular_locations d)).
Proof.
  unfold popular_locations, pickup_clusters. split.
  - intros la lo c. rewrite filter_In, groupby_size_In. simpl.
    rewrite Nat.ltb_lt. split.
    + tauto.
    + intros [Hc Hlt]. repeat split; try assumption.
      apply (count_occ_In eq_dec_key). lia.
  - apply filter_distinct_labels, groupby_size_distinct.
Qed.

(** C9, as the code has it: the hourly, weekly, location, fare and summary
    operations leave the object and its dataset exactly as they were; the
    trip-duration operation keeps the rows, their fields and their order
    and stores the column trip_duration (distance / 20 * 60 of each row)
    in the dataset, and running it again changes nothing more. *)
Theorem aggregations_frame (self : UberPuneAnalysis) :
  after PeakHours self = self /\
  after WeeklyPattern self = self /\
  after PopularLocations self = self /\
  after FareDistribution self = self /\
  after SummaryStatistics self = self /\
  match df self with
  | None => after TripDurations self = self
  | Some d =>
      after TripDurations self =
      {| df := Some {| rows := rows d;
                       trip_duration := Some (trip_durations d) |} |}
  end /\
  after TripDurations (after TripDurations self) = after TripDurations self.
Proof.
  repeat split; try reflexivity.
  - simpl. unfold analyze_trip_durations. destruct (df self); reflexivity.
  - simpl. unfold analyze_trip_durations.
    destruct (df self) eqn:E; simpl; rewrite ?E; reflexivity.
Qed.

(** C3, on the code: the dataset with no rows (the input with no lines
    cleans to it) makes the summary statistics raise IndexError, at the
    first [.iloc[0]] of an empty mode, and no mapping is returned. *)
Theorem summary_stats_empty_raises (td : option (list R)) :
  preprocess_data (with_index []) =
  Ok {| rows := []; trip_duration := None |} /\
  let self := {| df := Some {| rows := []; trip_duration := td |} |} in
  generate_summary_stats self = (Raise IndexError, self).
Proof.
  split; reflexivity.
Qed.

(** C8: in the cleaned dataset the pipeline returns, every well-formed
    line of the input has its row, with the line's four coordinates; every
    row's distance is what [haversine_distance] returns on the row's four
    coordinates and is not negative; the trip durations are
    distance / 20 * 60 of each row, hence a function of the coordinates
    too, and not negative; no aggregation changes the rows, and once the
    durations are stored no aggregation changes the dataset. *)
Theorem distance_and_duration_derived (raw : list RawRow) (d : DataFrame) :
  preprocess_data (with_index raw) = Ok d ->
  (forall i r, nth_error raw i = Some r ->
     retained (parse_pickup (with_index raw)) r ->
     exists row,
       In row (rows d) /\ index row = i /\
       raw_pickup_lat r = Some (pickup_lat row) /\
       raw_pickup_lon r = Some (pickup_lon row) /\
       raw_dropoff_lat r = Some (dropoff_lat row) /\
       raw_dropoff_lon r = Some (dropoff_lon row)) /\
  (forall row, In row (rows d) ->
     haversine_distance (pickup_lat row) (pickup_lon row)
                        (dropoff_lat row) (dropoff_lon row) =
     Ok (distance row) /\
     (0 <= distance row)%R) /\
  (exists td,
     analyze_trip_durations {| df := Some d |} =
     (Ok td,
      {| df := Some {| rows := rows d; trip_duration := Some td |} |}) /\
     td = map (fun row =>
                 (spec_haversine_km (pickup_lat row) (pickup_lon row)
                                    (dropoff_lat row) (dropoff_lon row)
                  / 20 * 60)%R) (rows d) /\
     Forall (fun t => (0 <= t)%R) td) /\
  (forall op, exists d',
     df (after op {| df := Some d |}) = Some d' /\ rows d' = rows d) /\
  (forall op,
     after op (after TripDurations {| df := Some d |}) =
     after TripDurations {| df := Some d |}).
Proof.
  intros Hd.
  split; [intros i r; now apply retained_line_row |].
  apply preprocess_data_inv in Hd.
  assert (Hdist : forall row, In row (rows d) ->
            distance row =
            spec_haversine_km (pickup_lat row) (pickup_lon row)
                              (dropoff_lat row) (dropoff_lon row))
    by (subst d; intros row; apply kept_row_distance).
  clear Hd. split; [| split; [| split]].
  - intros row Hin. rewrite (Hdist _ Hin).
    split; [apply haversine_distance_spec | apply spec_haversine_km_nonneg].
  - exists (trip_durations d). repeat split.
    + unfold trip_durations. apply map_ext_in. intros row Hin.
      now rewrite (Hdist _ Hin).
    + unfold trip_durations. apply Forall_forall. intros t Ht.
      apply in_map_iff in Ht. destruct Ht as [row [<- Hin]].
      rewrite (Hdist _ Hin).
      pose proof (spec_haversine_km_nonneg (pickup_lat row) (pickup_lon row)
                    (dropoff_lat row) (dropoff_lon row)).
      lra.
  - intros op. destruct op; simpl; eexists; split; reflexivity.
  - intros op. destruct op; reflexivity.
Qed.

(** C5, on the code: when the file is not found the constructor writes its
    message and returns an object without a dataset, and every aggregation
    on that object raises AttributeError. *)
Theorem missing_file_analytics_raise (data_path : string) :
  read_csv data_path = Raise FileNotFoundError ->
  exists self,
    init data_path = (Ok self, [not_found_message]) /\
    df self = None /\
    forall op, raises op self = Some AttributeError /\ after op self = self.
Proof.
  intros Hfile. exists {| df := None |}. unfold init. rewrite Hfile. simpl.
  repeat split; destruct op; reflexivity.
Qed.

(** X16: with the default file missing, the constructor writes its message
    and the page then stops at the summary statistics, on AttributeError. *)
Lemma main_missing_file :
  read_csv default_data_path = Raise FileNotFoundError ->
  main = (Raise AttributeError, [not_found_message]).
Proof.
  intros Hfile. unfold main, init. rewrite Hfile. reflexivity.
Qed.

(** A file that exists and cannot be opened: the constructor itself raises,
    and nothing is written. *)
Lemma unreadable_file_raises (data_path : string) :
  read_csv data_path = Raise PermissionError ->
  init data_path = (Raise PermissionError, []).
Proof.
  intros Hfile. unfold init. rewrite Hfile. reflexivity.
Qed.

End AggregationClaims.

Lemma distance_and_duration_derived_witness :
  preprocess_data (with_index Sample.lines) = Ok Sample.cleaned /\
  forall row, In row (rows Sample.cleaned) ->
    haversine_distance (pickup_lat row) (pickup_lon row)
                       (dropoff_lat row) (dropoff_lon row) =
    Ok (distance row) /\
    (0 <= distance row)%R.
Proof.
  split; [exact sample_cleaned |].
  exact (proj1 (proj2 (distance_and_duration_derived
                         Sample.lines sample_cleaned))).
Defined.

(** The sample file system has no file of that name. *)
Lemma missing_file_analytics_raise_witness :
  read_csv "missing.csv" = Raise FileNotFoundError /\
  exists self,
    init "missing.csv" = (Ok self, [not_found_message]) /\
    df self = None /\
    forall op, raises op self = Some AttributeError /\ after op self = self.
Proof.
  split; [reflexivity |].
  apply (missing_file_analytics_raise (pandas := Sample.pandas) "missing.csv").
  reflexivity.
Defined.

(** C4, as stated, fails: in the weekly distribution of the sample dataset,
    whose only row is a Monday, Tuesday carries no value instead of the
    count 0. *)
Lemma weekly_rides_absent_day_not_zero :
  ~ (forall dn, In dn days_order ->
       lookup string_dec dn (weekly_rides Sample.cleaned) =
       Some (Some (count_occ string_dec (map day (rows Sample.cleaned)) dn))).
Proof.
  intros H.
  assert (Hin : In "Tuesday"%string days_order) by (simpl; tauto).
  specialize (H _ Hin). lazy in H. discriminate H.
Qed.

(** C9, as stated, fails: on the object holding the cleaned sample dataset
    the trip-duration operation leaves a dataset with one more field. *)
Lemma trip_durations_changes_dataset :
  ~ (forall d, preprocess_data (with_index Sample.lines) = Ok d ->
       forall op, after op {| df := Some d |} = {| df := Some d |}).
Proof.
  intros H. specialize (H _ sample_cleaned TripDurations).
  simpl in H. unfold analyze_trip_durations in H. simpl in H.
  discriminate H.
Qed.

(** * Further properties of the code *)

(** ** Sorting *)

Section SortedFacts.
Variable A : Type.
Variable leb : A -> A -> bool.
Hypothesis leb_total : forall a b, leb a b = true \/ leb b a = true.
Hypothesis leb_trans :
  forall a b c, leb a b = true -> leb b c = true -> leb a c = true.

Lemma insert_sorted (x : A) (l : list A) :
  StronglySorted (fun a b => leb a b = true) l ->
  StronglySorted (fun a b => leb a b = true) (insert leb x l).
Proof.
  induction 1 as [| y t Hs IH Hall]; simpl.
  - constructor; constructor.
  - destruct (leb x y) eqn:Hxy.
    + constructor; [constructor; assumption |].
      constructor; [exact Hxy |].
      rewrite Forall_forall in *. intros z Hz.
      apply leb_trans with y; [exact Hxy | now apply Hall].
    + constructor; [exact IH |].
      rewrite Forall_forall in *. intros z Hz.
      apply (Permutation_in _ (insert_perm leb x t)) in Hz.
      destruct Hz as [<- | Hz]; [| now apply Hall].
      destruct (leb_total x y) as [H | H]; [congruence | exact H].
Qed.

Lemma isort_sorted (l : list A) :
  StronglySorted (fun a b => leb a b = true) (isort leb l).
Proof.
  induction l as [| x t IH]; simpl; [constructor | now apply insert_sorted].
Qed.


End SortedFacts.



(** ** Counts and modes *)



Section TallyFacts.
Variable K : Type.
Variable eq_dec : forall a b : K, {a = b} + {a <> b}.

Lemma bump_total (k : K) (s : list (K * nat)) :
  list_sum (map snd (bump eq_dec k s)) = S (list_sum (map snd s)).
Proof.
  induction s as [| [k' c] t IH]; simpl; [reflexivity |].
  destruct (eq_dec k k'); simpl; [reflexivity | rewrite IH; lia].
Qed.

Lemma fold_bump_total (l : list K) (s : list (K * nat)) :
  list_sum (map snd (fold_left (fun s k => bump eq_dec k s) l s)) =
  List.length l + list_sum (map snd s).
Proof.
  revert s. induction l as [| k t IH]; intros s; simpl; [reflexivity |].
  rewrite IH, bump_total. lia.
Qed.

(** The counts of a column add up to its length. *)
Lemma tally_total (l : list K) :
  list_sum (map snd (tally eq_dec l)) = List.length l.
Proof. unfold tally. rewrite fold_bump_total. simpl. lia. Qed.

Lemma list_sum_perm (l l' : list nat) :
  Permutation l l' -> list_sum l = list_sum l'.
Proof.
  induction 1; simpl; lia.
Qed.

Lemma value_counts_total (l : list K) :
  list_sum (map snd (value_counts eq_dec l)) = List.length l.
Proof.
  unfold value_counts. rewrite <- tally_total.
  apply list_sum_perm, Permutation_map, isort_perm.
Qed.

Lemma value_counts_In (k : K) (c : nat) (l : list K) :
  In (k, c) (value_counts eq_dec l) <-> In k l /\ c = count_occ eq_dec l k.
Proof.
  unfold value_counts. rewrite isort_In. apply tally_In.
Qed.

Lemma value_counts_distinct (l : list K) :
  NoDup (map fst (value_counts eq_dec l)).
Proof.
  unfold value_counts. eapply Permutation_NoDup.
  - apply Permutation_map, Permutation_sym, isort_perm.
  - apply tally_distinct.
Qed.

Variable leb : K -> K -> bool.
Hypothesis leb_total : forall a b, leb a b = true \/ leb b a = true.
Hypothesis leb_trans :
  forall a b c, leb a b = true -> leb b c = true -> leb a c = true.


End TallyFacts.

(** ** More on the cleaning pipeline *)

Lemma keep_length (A B : Type) (f : A -> option B) (l : list A) :
  List.length (keep f l) <= List.length l /\
  (List.length (keep f l) = List.length l <->
   forall x, In x l -> f x <> None).
Proof.
  induction l as [| x t [IHle IHeq]]; simpl.
  - split; [lia |]. split; [intros _ x [] | reflexivity].
  - destruct (f x) as [y |] eqn:E; simpl.
    + split; [lia |]. split.
      * intros Hlen y' [<- | Hin]; [congruence |].
        apply IHeq; [lia | exact Hin].
      * intros Hall. f_equal. apply IHeq. intros y' Hin. apply Hall. now right.
    + split; [lia |]. split; [lia |].
      intros Hall. exfalso. apply (Hall x); [now left | exact E].
Qed.

Section PipelineMore.
Context {pandas : Pandas}.

(** X6: a cleaned dataset the pipeline returns never has more rows than
    the input has lines, and it has as many exactly when every line of the
    input is well-formed. *)
Theorem preprocess_data_size (raw : list RawRow) (d : DataFrame) :
  preprocess_data (with_index raw) = Ok d ->
  List.length (rows d) <= List.length raw /\
  (List.length (rows d) = List.length raw <->
   forall r, In r raw -> retained (parse_pickup (with_index raw)) r).
Proof.
  intros Hd. apply preprocess_data_inv in Hd. subst d. simpl.
  set (parse := parse_pickup (with_index raw)).
  assert (Hlen : List.length (with_index raw) = List.length raw).
  { unfold with_index. rewrite length_combine, length_seq. lia. }
  destruct (keep_length (clean_row parse) (with_index raw)) as [Hle Heq].
  rewrite Hlen in Hle, Heq. split; [exact Hle |].
  rewrite Heq. split.
  - intros Hall r Hin. apply In_nth_error in Hin. destruct Hin as [i Hi].
    apply (clean_row_retained parse i).
    apply with_index_In in Hi. specialize (Hall _ Hi).
    destruct (clean_row parse (i, r)) as [row |]; [now exists row | congruence].
  - intros Hall [i r] Hin. apply with_index_In in Hin.
    apply nth_error_In in Hin. apply Hall in Hin.
    apply (clean_row_retained parse i) in Hin.
    destruct Hin as [row E]. congruence.
Qed.

(** X7: in a cleaned dataset the pipeline returns, the hour, month, day
    name and weekday number of every row are those of its own pickup
    timestamp, and its day name is the entry of [days_order] at its weekday
    number. *)
Theorem preprocess_data_derived_columns (raw : list RawRow) (d : DataFrame) :
  preprocess_data (with_index raw) = Ok d ->
  forall row, In row (rows d) ->
    hour row = dt_hour (pickup_datetime row) /\
    month row = dt_month (pickup_datetime row) /\
    day row = day_name (dt_dayofweek (pickup_datetime row)) /\
    weekday row = weekday_number (dt_dayofweek (pickup_datetime row)) /\
    nth_error days_order (weekday row) = Some (day row).
Proof.
  intros Hd row Hin. apply preprocess_data_inv in Hd. subst d.
  simpl in Hin. apply cleaned_row_origin in Hin. destruct Hin as [r [_ E]].
  pose proof (clean_row_fields _ _ _ E) as [_ [_ [_ [_ [Hh [Hm [Hd Hw]]]]]]].
  repeat split; try assumption.
  rewrite Hw, Hd. destruct (dt_dayofweek (pickup_datetime row)); reflexivity.
Qed.

End PipelineMore.

Lemma preprocess_data_size_witness :
  preprocess_data (with_index Sample.lines) = Ok Sample.cleaned /\
  List.length (rows Sample.cleaned) <= List.length Sample.lines.
Proof.
  split; [exact sample_cleaned |].
  exact (proj1 (preprocess_data_size Sample.lines sample_cleaned)).
Defined.

Lemma preprocess_data_derived_columns_witness :
  preprocess_data (with_index Sample.lines) = Ok Sample.cleaned /\
  In Sample.the_row (rows Sample.cleaned) /\
  nth_error days_order (weekday Sample.the_row) = Some (day Sample.the_row).
Proof.
  assert (Hin : In Sample.the_row (rows Sample.cleaned)) by (simpl; now left).
  split; [exact sample_cleaned |]. split; [exact Hin |].
  exact (proj2 (proj2 (proj2 (proj2
           (preprocess_data_derived_columns Sample.lines sample_cleaned
                                            Sample.the_row Hin))))).
Defined.

(** ** More on the aggregations *)

Lemma sorted_distinct_increasing (A : Type) (f : A -> nat) (l : list A) :
  StronglySorted (fun a b => (f a <=? f b) = true) l ->
  NoDup (map f l) ->
  StronglySorted lt (map f l).
Proof.
  induction 1 as [| x t Hs IH Hall]; simpl; intros Hnd; constructor.
  - apply IH. now inversion Hnd.
  - inversion Hnd as [| ? ? Hfresh _]; subst.
    rewrite Forall_forall in *. intros n Hn.
    apply in_map_iff in Hn. destruct Hn as [y [<- Hy]].
    specialize (Hall y Hy). apply Nat.leb_le in Hall.
    assert (f x <> f y)
      by (intros E; apply Hfresh; rewrite E; now apply in_map).
    lia.
Qed.

Lemma filter_total_le (K : Type) (p : K * nat -> bool) (s : list (K * nat)) :
  list_sum (map snd (filter p s)) <= list_sum (map snd s).
Proof.
  induction s as [| e t IH]; simpl; [lia |].
  destruct (p e); simpl; lia.
Qed.

Lemma total_at_least (K : Type) (n : nat) (s : list (K * nat)) :
  (forall e, In e s -> n <= snd e) ->
  n * List.length s <= list_sum (map snd s).
Proof.
  induction s as [| e t IH]; simpl; intros Hall; [lia |].
  pose proof (Hall e (or_introl eq_refl)).
  assert (n * List.length t <= list_sum (map snd t))
    by (apply IH; intros e' He'; apply Hall; now right).
  lia.
Qed.

Lemma count_occ_cons_elsewhere (x : string) (t labels : list string) :
  ~ In x labels ->
  list_sum (map (count_occ string_dec (x :: t)) labels) =
  list_sum (map (count_occ string_dec t) labels).
Proof.
  intros Hout. f_equal. apply map_ext_in. intros k Hk.
  apply count_occ_cons_neq. intros ->. contradiction.
Qed.

Lemma count_occ_cons_over_labels (x : string) (t labels : list string) :
  NoDup labels -> In x labels ->
  list_sum (map (count_occ string_dec (x :: t)) labels) =
  S (list_sum (map (count_occ string_dec t) labels)).
Proof.
  induction 1 as [| k ks Hfresh Hnd IH]; [contradiction |].
  intros Hin.
  change (count_occ string_dec (x :: t) k +
          list_sum (map (count_occ string_dec (x :: t)) ks) =
          S (count_occ string_dec t k +
             list_sum (map (count_occ string_dec t) ks))).
  destruct (string_dec x k) as [-> | Hne].
  - rewrite count_occ_cons_eq by reflexivity.
    rewrite (count_occ_cons_elsewhere _ t _ Hfresh). lia.
  - rewrite count_occ_cons_neq by exact Hne.
    destruct Hin as [-> | Hin]; [contradiction |].
    rewrite (IH Hin). lia.
Qed.

Lemma count_occ_over_labels (labels l : list string) :
  NoDup labels -> (forall x, In x l -> In x labels) ->
  list_sum (map (count_occ string_dec l) labels) = List.length l.
Proof.
  intros Hnd. induction l as [| x t IH]; intros Hall.
  - clear. induction labels as [| k ks IHk]; simpl; [reflexivity | exact IHk].
  - rewrite count_occ_cons_over_labels;
      [| exact Hnd | apply Hall; now left].
    simpl. f_equal. apply IH. intros y Hy. apply Hall. now right.
Qed.

Section AggregationMore.
Context {pandas : Pandas}.

(** X8: the hourly distribution holds exactly the hours that occur, each with
    the number of its rows, in increasing order of the hour; an hour with
    no ride has no entry. *)
Theorem hourly_rides_entries (d : DataFrame) :
  (forall h c,
     In (h, c) (hourly_rides d) <->
     c = count_occ Nat.eq_dec (map hour (rows d)) h /\ 0 < c) /\
  StronglySorted lt (map fst (hourly_rides d)).
Proof.
  unfold hourly_rides, sort_index. split.
  - intros h c. rewrite isort_In, value_counts_In. split.
    + intros [Hin ->]. split; [reflexivity |].
      now apply (count_occ_In Nat.eq_dec).
    + intros [-> Hpos]. split; [| reflexivity].
      now apply (count_occ_In Nat.eq_dec).
  - apply sorted_distinct_increasing.
    + apply isort_sorted.
      * intros a b. rewrite !Nat.leb_le. lia.
      * intros a b c. rewrite !Nat.leb_le. lia.
    + eapply Permutation_NoDup.
      * apply Permutation_map, Permutation_sym, isort_perm.
      * apply value_counts_distinct.
Qed.

(** X9: the hourly counts add up to the size of the dataset. *)
Theorem hourly_rides_total (d : DataFrame) :
  list_sum (map snd (hourly_rides d)) = List.length (rows d).
Proof.
  unfold hourly_rides, sort_index.
  rewrite (list_sum_perm (Permutation_map snd (isort_perm _ _))).
  rewrite value_counts_total. apply length_map.
Qed.

(** X10: on a cleaned dataset the pipeline returns, the weekly counts, NaN
    counting for nothing, add up to the size of the dataset: every row
    falls on one of the seven days the distribution is reindexed to. *)
Theorem weekly_rides_total (raw : list RawRow) (d : DataFrame) :
  preprocess_data (with_index raw) = Ok d ->
  list_sum (map (fun e => match snd e with Some c => c | None => 0 end)
                (weekly_rides d)) =
  List.length (rows d).
Proof.
  intros Hd. apply preprocess_data_inv in Hd. subst d.
  unfold weekly_rides, reindex. simpl rows.
  set (kept := keep _ _). rewrite map_map. simpl snd.
  rewrite <- (length_map day kept).
  rewrite <- (count_occ_over_labels (labels := days_order)).
  - f_equal. apply map_ext. intros dn. rewrite lookup_value_counts.
    destruct (count_occ string_dec (map day kept) dn); reflexivity.
  - unfold days_order.
    repeat (constructor;
            [simpl; intros H; repeat destruct H as [H | H];
             try discriminate H; try contradiction |]).
    constructor.
  - intros dn Hin. apply in_map_iff in Hin. destruct Hin as [row [<- Hin]].
    apply keep_In in Hin. destruct Hin as [ir [_ E]].
    unfold clean_row in E.
    destruct (parse_pickup _ _) as [ts |]; [| discriminate].
    destruct (coordinates _) as [[[[? ?] ?] ?] |]; [| discriminate].
    destruct (to_numeric _); [| discriminate].
    inversion E; subst; simpl.
    destruct (dt_dayofweek ts); simpl; tauto.
Qed.

(** X11: each popular location stands for at least 11 rows of its own, so a
    dataset of [n] rows has at most [n / 11] of them, and none at all when
    it has 10 rows or fewer. *)
Theorem popular_locations_bound (d : DataFrame) :
  11 * List.length (popular_locations d) <= List.length (rows d).
Proof.
  unfold popular_locations.
  set (p := fun g : R * R * nat => 10 <? snd g).
  assert (Hall : List.length (rows d) =
                 list_sum (map snd (pickup_clusters d))).
  { unfold pickup_clusters, groupby_size, sort_index.
    rewrite (list_sum_perm (Permutation_map snd (isort_perm _ _))).
    rewrite tally_total. symmetry. apply length_map. }
  rewrite Hall.
  apply Nat.le_trans
    with (list_sum (map snd (filter p (pickup_clusters d)))).
  - apply total_at_least. intros e He. apply filter_In in He.
    destruct He as [_ He]. unfold p in He. apply Nat.ltb_lt in He. lia.
  - apply filter_total_le.
Qed.

End AggregationMore.

Lemma weekly_rides_total_witness :
  preprocess_data (with_index Sample.lines) = Ok Sample.cleaned /\
  list_sum (map (fun e => match snd e with Some c => c | None => 0 end)
                (weekly_rides Sample.cleaned)) =
  List.length (rows Sample.cleaned).
Proof.
  split; [exact sample_cleaned |].
  exact (weekly_rides_total Sample.lines sample_cleaned).
Defined.

(** ** The summary statistics, the constructor and the page *)


Section SummaryMore.
Context {pandas : Pandas}.




(** X15: when the default file is read and the pipeline returns a dataset
    with no row, the page stops at the summary statistics, on IndexError,
    nothing having been written by the constructor. *)
Theorem main_empty_dataset_raises (raw : list RawRow) (d : DataFrame) :
  read_csv default_data_path = Ok raw ->
  preprocess_data (with_index raw) = Ok d ->
  rows d = [] ->
  main = (Raise IndexError, []).
Proof.
  intros Hfile Hd Hrows. unfold main, init. rewrite Hfile. cbn [bind].
  rewrite Hd. destruct d as [rs td]. simpl in Hrows. subst rs. reflexivity.
Qed.

End SummaryMore.


Lemma main_empty_dataset_raises_witness :
  @read_csv Malformed.pandas default_data_path = Ok Malformed.lines /\
  @preprocess_data Malformed.pandas (with_index Malformed.lines) =
  Ok {| rows := []; trip_duration := None |} /\
  @main Malformed.pandas = (Raise IndexError, []).
Proof.
  assert (Hd : @preprocess_data Malformed.pandas (with_index Malformed.lines)
               = Ok {| rows := []; trip_duration := None |})
    by (rewrite preprocess_data_rows; reflexivity).
  split; [reflexivity |]. split; [exact Hd |].
  exact (main_empty_dataset_raises (pandas := Malformed.pandas)
           (raw := Malformed.lines) eq_refl Hd eq_refl).
Defined.

Lemma main_missing_file_witness :
  @read_csv Missing.pandas default_data_path = Raise FileNotFoundError /\
  @main Missing.pandas = (Raise AttributeError, [not_found_message]).
Proof.
  split; [reflexivity |].
  apply (main_missing_file (pandas := Missing.pandas)). reflexivity.
Defined.
